(** * QuNetSim, [qunetsim/backends/qutip_backend.py]: the QuTip backend facade

    A shallow embedding of the module: the two registry singletons
    [QuTipBackend.Hosts] and [QuTipBackend.EntanglementIDs], the
    [QuTipBackend.QubitCollection] class, the facade's constructor and its
    methods.  Python objects live in a heap addressed by references, class
    attributes are fields of the program state, and every method is a
    computation in a state-and-exception monad. *)

From Stdlib Require Import ZArith String List.
From Stdlib Require Import Floats.SpecFloat.
From stdpp Require Import gmap strings list fin_maps.

(** ** Values *)

(** Object references. *)
Definition loc := nat.

(** A [Host] of [qunetsim.components.host].  The backend reads nothing of a
    host but [host.host_id]; [host_ref] is the identity of the host object,
    so that two hosts carrying the same id remain two hosts. *)
Record Host := { host_id : string; host_ref : loc }.

(** The values handed to the facade: host ids and entanglement ids are
    strings, [phi] is a float, [block] and [non_destructive] are booleans, a
    gate is an array of rows, a qubit is a reference to a [Qubit] object. *)
#[local] Set Warnings "-register-all".
Inductive pyval :=
| VNone
| VBool (b : bool)
| VInt (n : Z)
| VFloat (x : spec_float)
| VStr (s : string)
| VRef (l : loc)
| VHost (h : Host)
| VList (vs : list pyval).

(** ** Exceptions *)

(** Why binding the arguments of a call to a [def]'s parameter list fails;
    the counts of [TooManyPositional] include [self], as Python's message
    does. *)
Inductive bind_error :=
| TooManyPositional (takes given : nat)
| MultipleValues (name : string)
| UnexpectedKeyword (name : string)
| MissingArgument (name : string).

Inductive pyexc :=
| Exception (msg : string)
| EnvironmentError (msg : string)
| TypeError (why : bind_error)
| AttributeError (name : string)
| DuplicateKey (key : string)
| KeyNotFound (key : string).

(** The message of [Hosts.__init__] and [EntanglementIDs.__init__]. *)
Definition singleton_msg : string := "Call get instance to get this class!".

(** The message of every interface method.  The literal is continued over a
    line break with a backslash, so the 24 blanks that indent the second line
    are part of it. *)
Definition interface_msg : string :=
  "This is only an interface, not " ++
  "                        " ++
  "an actual implementation!".

(** The error names of the design, and the name each exception raised in this
    module goes by: the interface methods' [EnvironmentError] is the
    design's [NotImplemented], the [Exception] of the two singleton
    constructors is its [SingletonViolation].  A [TypeError] or an
    [AttributeError] has no name there. *)
Module Taxonomy.
Inductive t :=
| SingletonViolation | KeyNotFound | DuplicateKey
| EntanglementNotFound | AlreadyFulfilled | OwnershipMismatch
| InvalidGateDimension | NotUnitary | NotImplemented.
End Taxonomy.

Definition classify (e : pyexc) : option Taxonomy.t :=
  match e with
  | Exception _ => Some Taxonomy.SingletonViolation
  | EnvironmentError _ => Some Taxonomy.NotImplemented
  | DuplicateKey _ => Some Taxonomy.DuplicateKey
  | KeyNotFound _ => Some Taxonomy.KeyNotFound
  | TypeError _ | AttributeError _ => None
  end.

(** ** Objects and the program state *)

(** The two subclasses of [SafeDict]. *)
Inductive class := HostsClass | EntanglementIDsClass.

Global Instance class_eq_dec : EqDecision class.
Proof. solve_decision. Defined.

(** A [qutip.Qobj] as far as this module uses one: the amplitudes it was
    built from.  The only amplitudes the module writes are the integer
    literals 1 and 0. *)
Record Qobj := { data : list Z }.

(** [qutip.Qobj(inpt)] on a flat list of amplitudes. *)
Definition Qobj_init (inpt : list Z) : Qobj := {| data := inpt |}.

(** [qutip.basis(dim, n)]: the ket with amplitude 1 at index [n]. *)
Definition basis (dim n : nat) : list Z :=
  map (fun i => if Nat.eqb i n then 1%Z else 0%Z) (seq 0 dim).

(** Sum of the squared amplitudes. *)
Definition norm2 (v : list Z) : Z := fold_right (fun a s => (a * a + s)%Z) 0%Z v.

(** What the heap holds: the instances of the two registries with the
    dictionary they guard, and the [QubitCollection]s. *)
Inductive object :=
| Registry (c : class) (dict : gmap string pyval)
| Collection (q : Qobj).

(** The state of the program: the heap and the two class attributes
    [QuTipBackend.Hosts.__instance] and
    [QuTipBackend.EntanglementIDs.__instance]. *)
Record state := {
  heap : gmap loc object;
  Hosts__instance : option loc;
  EntanglementIDs__instance : option loc;
}.

(** The state once the module has been imported: both [__instance]
    attributes are [None], nothing is allocated. *)
Definition init_state : state :=
  {| heap := ∅; Hosts__instance := None; EntanglementIDs__instance := None |}.

Definition set_heap (f : gmap loc object → gmap loc object) (st : state) : state :=
  {| heap := f (heap st);
     Hosts__instance := Hosts__instance st;
     EntanglementIDs__instance := EntanglementIDs__instance st |}.

Definition set_Hosts__instance (v : option loc) (st : state) : state :=
  {| heap := heap st;
     Hosts__instance := v;
     EntanglementIDs__instance := EntanglementIDs__instance st |}.

Definition set_EntanglementIDs__instance (v : option loc) (st : state) : state :=
  {| heap := heap st;
     Hosts__instance := Hosts__instance st;
     EntanglementIDs__instance := v |}.

(** ** The monad: state passing, [raise] aborts *)

Inductive outcome (A : Type) :=
| Return (a : A)
| Raise (e : pyexc).
Arguments Return {A} a.
Arguments Raise {A} e.

Definition M (A : Type) : Type := state → outcome A * state.

Global Instance M_ret : MRet M := λ A a st, (Return a, st).

Global Instance M_bind : MBind M := λ A B f m st,
  match m st with
  | (Return a, st') => f a st'
  | (Raise e, st') => (Raise e, st')
  end.

Definition raise {A} (e : pyexc) : M A := λ st, (Raise e, st).
Definition gets {A} (f : state → A) : M A := λ st, (Return (f st), st).
Definition modify (f : state → state) : M () := λ st, (Return (), f st).

(** A reference no live object has: the object that [cls()] allocates before
    it runs [__init__] on it. *)
Definition alloc : M loc := gets (λ st, fresh (dom (heap st))).

(** ** [SafeDict] *)

Module SafeDict.

(** Modelled from the spec: the class [SafeDict] of
    [qunetsim.backends.safe_dict], the base of both registries, is not part
    of this module.  It is the design's shared registry, a mapping guarded by
    a lock: one call is one critical section, hence one step here.  A new
    registry is empty. *)
Definition __init__ (c : class) (self : loc) : M pyval :=
  modify (set_heap <[self := Registry c ∅]>) ;;
  mret VNone.

(** Modelled from the spec: [SafeDict.add_to_dict], the registry's [add]:
    it inserts and, overwriting being forbidden, fails with [DuplicateKey]
    when the key is there (neither subclass asks for a variant that allows
    updates). *)
Definition add_to_dict (self : loc) (key : string) (value : pyval) : M pyval :=
  o ← gets (λ st, heap st !! self);
  match o with
  | Some (Registry c dict) =>
      match dict !! key with
      | Some _ => raise (DuplicateKey key)
      | None =>
          modify (set_heap <[self := Registry c (<[key := value]> dict)]>) ;;
          mret VNone
      end
  | _ => raise (AttributeError "add_to_dict")
  end.

(** Modelled from the spec: the registry's [get], which returns the value
    or fails with [KeyNotFound]. *)
Definition get (self : loc) (key : string) : M pyval :=
  o ← gets (λ st, heap st !! self);
  match o with
  | Some (Registry c dict) =>
      match dict !! key with
      | Some v => mret v
      | None => raise (KeyNotFound key)
      end
  | _ => raise (AttributeError "get")
  end.

(** Modelled from the spec: the registry's [remove], which deletes the key
    or fails with [KeyNotFound].  Nothing in the facade calls it. *)
Definition remove (self : loc) (key : string) : M pyval :=
  o ← gets (λ st, heap st !! self);
  match o with
  | Some (Registry c dict) =>
      match dict !! key with
      | Some _ =>
          modify (set_heap <[self := Registry c (delete key dict)]>) ;;
          mret VNone
      | None => raise (KeyNotFound key)
      end
  | _ => raise (AttributeError "remove")
  end.

End SafeDict.

(** ** The class [QuTipBackend] *)

(** An instance of the facade: its two attributes, set once by [__init__]. *)
Record QuTipBackend := { _hosts : loc; _entaglement_qubits : loc }.

Module QuTipBackend.

(** *** [QubitCollection(qutip.Qobj)] *)
Module QubitCollection.

(** [super().__init__([1, 0])]: a qubit in state |0>. *)
Definition __init__ (self : loc) : M pyval :=
  modify (set_heap <[self := Collection (Qobj_init [1%Z; 0%Z])]>) ;;
  mret VNone.

(** [QubitCollection()]. *)
Definition new : M loc :=
  self ← alloc;
  __init__ self ;;
  mret self.

(** [def add_qubit(self, qubit): pass] *)
Definition add_qubit (self : loc) (qubit : pyval) : M pyval :=
  mret VNone.

End QubitCollection.

(** *** [Hosts(SafeDict)] *)
Module Hosts.

Definition __init__ (self : loc) : M pyval :=
  inst ← gets Hosts__instance;
  match inst with
  | Some _ => raise (Exception singleton_msg)
  | None =>
      modify (set_Hosts__instance (Some self)) ;;
      SafeDict.__init__ HostsClass self
  end.

(** [QuTipBackend.Hosts()]: allocate, then initialise. *)
Definition new : M loc :=
  self ← alloc;
  __init__ self ;;
  mret self.

Definition get_instance : M loc :=
  inst ← gets Hosts__instance;
  match inst with
  | Some l => mret l
  | None => new
  end.

End Hosts.

(** *** [EntanglementIDs(SafeDict)] *)
Module EntanglementIDs.

Definition __init__ (self : loc) : M pyval :=
  inst ← gets EntanglementIDs__instance;
  match inst with
  | Some _ => raise (Exception singleton_msg)
  | None =>
      modify (set_EntanglementIDs__instance (Some self)) ;;
      SafeDict.__init__ EntanglementIDsClass self
  end.

(** [QuTipBackend.EntanglementIDs()]. *)
Definition new : M loc :=
  self ← alloc;
  __init__ self ;;
  mret self.

Definition get_instance : M loc :=
  inst ← gets EntanglementIDs__instance;
  match inst with
  | Some l => mret l
  | None => new
  end.

End EntanglementIDs.

(** *** The facade *)

(** [QuTipBackend()]: the new object's two attributes. *)
Definition __init__ : M QuTipBackend :=
  h ← Hosts.get_instance;
  e ← EntanglementIDs.get_instance;
  mret {| _hosts := h; _entaglement_qubits := e |}.

(** [def start(self, **kwargs): pass] *)
Definition start (self : QuTipBackend) (kwargs : gmap string pyval) : M pyval :=
  mret VNone.

(** [def stop(self): pass] *)
Definition stop (self : QuTipBackend) : M pyval :=
  mret VNone.

Definition add_host (self : QuTipBackend) (host : Host) : M pyval :=
  SafeDict.add_to_dict (_hosts self) (host_id host) (VHost host).

Definition create_qubit (self : QuTipBackend) (host_id : pyval) : M pyval :=
  raise (EnvironmentError interface_msg).

Definition send_qubit_to (self : QuTipBackend) (qubit from_host_id to_host_id : pyval)
  : M pyval :=
  raise (EnvironmentError interface_msg).

Definition create_EPR (self : QuTipBackend) (host_a_id host_b_id q_id block : pyval)
  : M pyval :=
  raise (EnvironmentError interface_msg).

Definition receive_epr (self : QuTipBackend) (host_id sender_id q_id block : pyval)
  : M pyval :=
  raise (EnvironmentError interface_msg).

Definition rx (self : QuTipBackend) (qubit phi : pyval) : M pyval :=
  raise (EnvironmentError interface_msg).

Definition ry (self : QuTipBackend) (qubit phi : pyval) : M pyval :=
  raise (EnvironmentError interface_msg).

(** [def rz(self, phi)]: one parameter after [self]. *)
Definition rz (self : QuTipBackend) (phi : pyval) : M pyval :=
  raise (EnvironmentError interface_msg).

Definition cnot (self : QuTipBackend) (qubit target : pyval) : M pyval :=
  raise (EnvironmentError interface_msg).

Definition cphase (self : QuTipBackend) (qubit target : pyval) : M pyval :=
  raise (EnvironmentError interface_msg).

Definition custom_gate (self : QuTipBackend) (qubit gate : pyval) : M pyval :=
  raise (EnvironmentError interface_msg).

Definition custom_controlled_gate (self : QuTipBackend) (qubit target gate : pyval)
  : M pyval :=
  raise (EnvironmentError interface_msg).

Definition custom_controlled_two_qubit_gate
  (self : QuTipBackend) (qubit target_1 target_2 gate : pyval) : M pyval :=
  raise (EnvironmentError interface_msg).

Definition custom_two_qubit_gate (self : QuTipBackend) (qubit1 qubit2 gate : pyval)
  : M pyval :=
  raise (EnvironmentError interface_msg).

Definition density_operator (self : QuTipBackend) (qubit : pyval) : M pyval :=
  raise (EnvironmentError interface_msg).

Definition measure (self : QuTipBackend) (qubit non_destructive : pyval) : M pyval :=
  raise (EnvironmentError interface_msg).

Definition release (self : QuTipBackend) (qubit : pyval) : M pyval :=
  raise (EnvironmentError interface_msg).

(** The one-letter gates come last: from here on [I], [X], [Y], [Z], [H]
    and [T] name methods. *)
Definition I (self : QuTipBackend) (qubit : pyval) : M pyval :=
  raise (EnvironmentError interface_msg).

Definition X (self : QuTipBackend) (qubit : pyval) : M pyval :=
  raise (EnvironmentError interface_msg).

Definition Y (self : QuTipBackend) (qubit : pyval) : M pyval :=
  raise (EnvironmentError interface_msg).

Definition Z (self : QuTipBackend) (qubit : pyval) : M pyval :=
  raise (EnvironmentError interface_msg).

Definition H (self : QuTipBackend) (qubit : pyval) : M pyval :=
  raise (EnvironmentError interface_msg).

Definition T (self : QuTipBackend) (qubit : pyval) : M pyval :=
  raise (EnvironmentError interface_msg).

End QuTipBackend.

(** ** Calling a method: binding the arguments *)

(** The methods of the facade. *)
Inductive method :=
| m_start | m_stop | m_add_host
| m_create_qubit | m_send_qubit_to | m_create_EPR | m_receive_epr
| m_I | m_X | m_Y | m_Z | m_H | m_T
| m_rx | m_ry | m_rz
| m_cnot | m_cphase
| m_custom_gate | m_custom_controlled_gate
| m_custom_controlled_two_qubit_gate | m_custom_two_qubit_gate
| m_density_operator | m_measure | m_release.

Global Instance method_eq_dec : EqDecision method.
Proof. solve_decision. Defined.

(** A parameter of a [def], with its default when it has one. *)
Record param := { p_name : string; p_default : option pyval }.

Definition req (name : string) : param := {| p_name := name; p_default := None |}.
Definition opt (name : string) (d : pyval) : param :=
  {| p_name := name; p_default := Some d |}.

(** The parameters after [self], and whether a [**kwargs] closes the list. *)
Record signature := { sig_params : list param; sig_var_kw : bool }.

Definition params (ps : list param) : signature :=
  {| sig_params := ps; sig_var_kw := false |}.

(** The parameter list of each method, as its [def] line has it. *)
Definition signature_of (m : method) : signature :=
  match m with
  | m_start => {| sig_params := []; sig_var_kw := true |}
  | m_stop => params []
  | m_add_host => params [req "host"]
  | m_create_qubit => params [req "host_id"]
  | m_send_qubit_to => params [req "qubit"; req "from_host_id"; req "to_host_id"]
  | m_create_EPR =>
      params [req "host_a_id"; req "host_b_id"; opt "q_id" VNone; opt "block" (VBool false)]
  | m_receive_epr =>
      params [req "host_id"; req "sender_id"; opt "q_id" VNone; opt "block" (VBool false)]
  | m_I | m_X | m_Y | m_Z | m_H | m_T => params [req "qubit"]
  | m_rx | m_ry => params [req "qubit"; req "phi"]
  | m_rz => params [req "phi"]
  | m_cnot | m_cphase => params [req "qubit"; req "target"]
  | m_custom_gate => params [req "qubit"; req "gate"]
  | m_custom_controlled_gate => params [req "qubit"; req "target"; req "gate"]
  | m_custom_controlled_two_qubit_gate =>
      params [req "qubit"; req "target_1"; req "target_2"; req "gate"]
  | m_custom_two_qubit_gate => params [req "qubit1"; req "qubit2"; req "gate"]
  | m_density_operator => params [req "qubit"]
  | m_measure => params [req "qubit"; req "non_destructive"]
  | m_release => params [req "qubit"]
  end.

(** The arguments once bound: the value of each parameter, and what
    [**kwargs] collected. *)
Record bound_args := { env : gmap string pyval; extra : gmap string pyval }.

(** The keyword arguments, in the order of the call.  [bound] are the names
    that have a value already ([self] and the parameters filled by position
    or by an earlier keyword), [free] the parameters still open. *)
Fixpoint bind_keywords (var_kw : bool) (bound free : list string)
    (kwargs : list (string * pyval)) (b : bound_args) : bind_error + bound_args :=
  match kwargs with
  | [] => inr b
  | (k, v) :: rest =>
      if decide (k ∈ bound) then inl (MultipleValues k)
      else if decide (k ∈ free) then
        bind_keywords var_kw (k :: bound) free rest
          {| env := <[k := v]> (env b); extra := extra b |}
      else if var_kw then
        bind_keywords var_kw (k :: bound) free rest
          {| env := env b; extra := <[k := v]> (extra b) |}
      else inl (UnexpectedKeyword k)
  end.

(** The parameters no argument filled take their default; one without a
    default is missing. *)
Fixpoint bind_defaults (ps : list param) (e : gmap string pyval)
    : bind_error + gmap string pyval :=
  match ps with
  | [] => inr e
  | p :: ps' =>
      match e !! p_name p, p_default p with
      | Some _, _ => bind_defaults ps' e
      | None, Some d => bind_defaults ps' (<[p_name p := d]> e)
      | None, None => inl (MissingArgument (p_name p))
      end
  end.

(** Binding a call of [m] on [self], with positional arguments [args] and
    keyword arguments [kwargs], to a parameter list, in the order the
    interpreter goes: the positional arguments fill the leading parameters,
    then the keywords are bound, then a surplus of positional arguments is
    reported, then the defaults are taken. *)
Definition bind_args (sg : signature) (args : list pyval) (kwargs : list (string * pyval))
    : bind_error + bound_args :=
  let names := map p_name (sig_params sg) in
  let positional := list_to_map (zip names args) in
  match bind_keywords (sig_var_kw sg)
          ("self" :: take (length args) names) (drop (length args) names)
          kwargs {| env := positional; extra := ∅ |} with
  | inl err => inl err
  | inr b =>
      if decide (length names < length args) then
        inl (TooManyPositional (S (length names)) (S (length args)))
      else
        match bind_defaults (sig_params sg) (env b) with
        | inl err => inl err
        | inr e => inr {| env := e; extra := extra b |}
        end
  end.

(** The value a bound parameter has. *)
Definition arg (b : bound_args) (name : string) : pyval :=
  default VNone (env b !! name).

(** The body of a method, on bound arguments.  [add_host] reads
    [host.host_id]: an argument that is no host has no such attribute. *)
Definition body (self : QuTipBackend) (m : method) (b : bound_args) : M pyval :=
  match m with
  | m_start => QuTipBackend.start self (extra b)
  | m_stop => QuTipBackend.stop self
  | m_add_host =>
      match arg b "host" with
      | VHost host => QuTipBackend.add_host self host
      | _ => raise (AttributeError "host_id")
      end
  | m_create_qubit => QuTipBackend.create_qubit self (arg b "host_id")
  | m_send_qubit_to =>
      QuTipBackend.send_qubit_to self
        (arg b "qubit") (arg b "from_host_id") (arg b "to_host_id")
  | m_create_EPR =>
      QuTipBackend.create_EPR self
        (arg b "host_a_id") (arg b "host_b_id") (arg b "q_id") (arg b "block")
  | m_receive_epr =>
      QuTipBackend.receive_epr self
        (arg b "host_id") (arg b "sender_id") (arg b "q_id") (arg b "block")
  | m_I => QuTipBackend.I self (arg b "qubit")
  | m_X => QuTipBackend.X self (arg b "qubit")
  | m_Y => QuTipBackend.Y self (arg b "qubit")
  | m_Z => QuTipBackend.Z self (arg b "qubit")
  | m_H => QuTipBackend.H self (arg b "qubit")
  | m_T => QuTipBackend.T self (arg b "qubit")
  | m_rx => QuTipBackend.rx self (arg b "qubit") (arg b "phi")
  | m_ry => QuTipBackend.ry self (arg b "qubit") (arg b "phi")
  | m_rz => QuTipBackend.rz self (arg b "phi")
  | m_cnot => QuTipBackend.cnot self (arg b "qubit") (arg b "target")
  | m_cphase => QuTipBackend.cphase self (arg b "qubit") (arg b "target")
  | m_custom_gate => QuTipBackend.custom_gate self (arg b "qubit") (arg b "gate")
  | m_custom_controlled_gate =>
      QuTipBackend.custom_controlled_gate self
        (arg b "qubit") (arg b "target") (arg b "gate")
  | m_custom_controlled_two_qubit_gate =>
      QuTipBackend.custom_controlled_two_qubit_gate self
        (arg b "qubit") (arg b "target_1") (arg b "target_2") (arg b "gate")
  | m_custom_two_qubit_gate =>
      QuTipBackend.custom_two_qubit_gate self
        (arg b "qubit1") (arg b "qubit2") (arg b "gate")
  | m_density_operator => QuTipBackend.density_operator self (arg b "qubit")
  | m_measure => QuTipBackend.measure self (arg b "qubit") (arg b "non_destructive")
  | m_release => QuTipBackend.release self (arg b "qubit")
  end.

(** Calling [m] on [self]: a call that does not bind raises [TypeError]
    before the body runs. *)
Definition invoke (self : QuTipBackend) (m : method)
    (args : list pyval) (kwargs : list (string * pyval)) : M pyval :=
  match bind_args (signature_of m) args kwargs with
  | inl err => raise (TypeError err)
  | inr b => body self m b
  end.

(** The methods that only raise: all but [start], [stop] and [add_host]. *)
Definition interface_methods : list method :=
  [ m_create_qubit; m_send_qubit_to; m_create_EPR; m_receive_epr;
    m_I; m_X; m_Y; m_Z; m_H; m_T; m_rx; m_ry; m_rz; m_cnot; m_cphase;
    m_custom_gate; m_custom_controlled_gate; m_custom_two_qubit_gate;
    m_custom_controlled_two_qubit_gate; m_density_operator; m_measure;
    m_release ].

(** ** Programs over the module *)

(** The two registry classes, by name. *)
Definition instance_of (c : class) : state → option loc :=
  match c with
  | HostsClass => Hosts__instance
  | EntanglementIDsClass => EntanglementIDs__instance
  end.

Definition get_instance (c : class) : M loc :=
  match c with
  | HostsClass => QuTipBackend.Hosts.get_instance
  | EntanglementIDsClass => QuTipBackend.EntanglementIDs.get_instance
  end.

Definition construct (c : class) : M loc :=
  match c with
  | HostsClass => QuTipBackend.Hosts.new
  | EntanglementIDsClass => QuTipBackend.EntanglementIDs.new
  end.

(** The statements of a run: the calls this module offers, one at a time. *)
Inductive op :=
| Get_instance (c : class)
| Construct (c : class)
| New_backend
| Invoke (self : QuTipBackend) (m : method) (args : list pyval) (kwargs : list (string * pyval))
| New_collection
| Add_qubit (self : loc) (qubit : pyval).

(** The state after one statement; an exception it raises is caught by the
    client, the state it left stays. *)
Definition step (o : op) (st : state) : state :=
  match o with
  | Get_instance c => (get_instance c st).2
  | Construct c => (construct c st).2
  | New_backend => (QuTipBackend.__init__ st).2
  | Invoke self m args kwargs => (invoke self m args kwargs st).2
  | New_collection => (QuTipBackend.QubitCollection.new st).2
  | Add_qubit self qubit => (QuTipBackend.QubitCollection.add_qubit self qubit st).2
  end.

(** The state after a sequence of statements. *)
Definition exec (ops : list op) (st : state) : state :=
  fold_left (λ s o, step o s) ops st.

(** The states a run of the program can be in. *)
Definition reachable (st : state) : Prop :=
  ∃ ops, exec ops init_state = st.

(** The instances of class [c] that have been constructed: those whose
    [__init__] ran to its end. *)
Definition constructed (c : class) (st : state) (l : loc) : Prop :=
  ∃ dict, heap st !! l = Some (Registry c dict).

(** The dictionary of the registry at [l]. *)
Definition registry_at (st : state) (l : loc) : option (gmap string pyval) :=
  match heap st !! l with
  | Some (Registry _ dict) => Some dict
  | _ => None
  end.

Definition set_instance (c : class) (v : option loc) : state → state :=
  match c with
  | HostsClass => set_Hosts__instance v
  | EntanglementIDsClass => set_EntanglementIDs__instance v
  end.

(** The ways a statement changes the state: a registry of class [c] is
    constructed and becomes the instance of its class, an entry is added to a
    registry, a collection is allocated. *)
Inductive change : state → state → Prop :=
| change_install c l st :
    instance_of c st = None →
    heap st !! l = None →
    change st (set_heap <[l := Registry c ∅]> (set_instance c (Some l) st))
| change_register l c dict key value st :
    heap st !! l = Some (Registry c dict) →
    dict !! key = None →
    change st (set_heap <[l := Registry c (<[key := value]> dict)]> st)
| change_collect l q st :
    heap st !! l = None →
    change st (set_heap <[l := Collection q]> st).

(** [st'] keeps what [st] has: the instance of each class, every registry
    and every entry of it. *)
Definition extends (st st' : state) : Prop :=
  (∀ c l, instance_of c st = Some l → instance_of c st' = Some l)
  ∧ (∀ l c dict, heap st !! l = Some (Registry c dict) →
       ∃ dict', heap st' !! l = Some (Registry c dict') ∧ dict ⊆ dict').

(** The singleton invariant: the registries of class [c] that have been
    constructed are exactly the one [__instance] refers to. *)
Definition singletons (st : state) : Prop :=
  ∀ c l, constructed c st l ↔ instance_of c st = Some l.

(** The shape the docstring of [custom_gate] asks of [gate]: two rows of two
    entries. *)
Definition is_2x2 (gate : pyval) : bool :=
  match gate with
  | VList [VList [_; _]; VList [_; _]] => true
  | _ => false
  end.

(** The number of parameters a call has to fill: those without a default. *)
Definition required (sg : signature) : nat :=
  length (filter (λ p, p_default p = None) (sig_params sg)).

(** ** Threads *)

(** Where a thread stands inside a call of [get_instance]: before each of
    its accesses to the class attribute or to the heap, or at its end.  The
    call tests [__instance is not None] and, if so, reads [__instance] again
    to return it; otherwise it calls the class, which allocates the object
    [self] and runs [__init__] on it: the guard tests [__instance], the
    assignment sets it, [SafeDict.__init__] fills the object in. *)
Inductive thread :=
| At_test
| At_return
| At_call
| At_guard (self : loc)
| At_assign (self : loc)
| At_super (self : loc)
| Returned (v : option loc)
| Raised (e : pyexc).

(** The objects the threads hold: allocated, whether filled in or not. *)
Definition held (ts : list thread) : gset loc :=
  ⋃ (map (λ t, match t with
               | At_guard l | At_assign l | At_super l | Returned (Some l) => {[ l ]}
               | _ => ∅
               end) ts).

(** One access of a thread in [get_instance] of class [c]; [live] are the
    objects other calls hold, which a new object differs from.  No lock is
    taken anywhere in the call, so any thread may run between two steps. *)
Definition thread_step (c : class) (live : gset loc) (t : thread) (st : state)
    : thread * state :=
  match t with
  | At_test =>
      match instance_of c st with
      | Some _ => (At_return, st)
      | None => (At_call, st)
      end
  | At_return => (Returned (instance_of c st), st)
  | At_call => (At_guard (fresh (dom (heap st) ∪ live)), st)
  | At_guard self =>
      match instance_of c st with
      | Some _ => (Raised (Exception singleton_msg), st)
      | None => (At_assign self, st)
      end
  | At_assign self => (At_super self, set_instance c (Some self) st)
  | At_super self => (Returned (Some self), (SafeDict.__init__ c self st).2)
  | Returned _ | Raised _ => (t, st)
  end.

(** Threads calling [get_instance] of one class, and the state they share. *)
Record pool := { threads : list thread; shared : state }.

(** The scheduler lets thread [i] take its next step. *)
Definition schedule_step (c : class) (p : pool) (i : nat) : pool :=
  match threads p !! i with
  | Some t =>
      let '(t', st') := thread_step c (held (threads p)) t (shared p) in
      {| threads := <[i := t']> (threads p); shared := st' |}
  | None => p
  end.

(** A schedule: the threads in the order they are given the processor. *)
Definition run_threads (c : class) (schedule : list nat) (p : pool) : pool :=
  fold_left (schedule_step c) schedule p.

(** ** The interface methods *)

(** Unfolding a computation down to the state it is run on. *)
Ltac run :=
  cbv beta iota zeta delta
    [mbind mret M_bind M_ret raise gets modify alloc
     get_instance construct instance_of set_instance
     QuTipBackend.Hosts.get_instance QuTipBackend.Hosts.new
     QuTipBackend.Hosts.__init__
     QuTipBackend.EntanglementIDs.get_instance QuTipBackend.EntanglementIDs.new
     QuTipBackend.EntanglementIDs.__init__
     QuTipBackend.QubitCollection.new QuTipBackend.QubitCollection.__init__
     QuTipBackend.QubitCollection.add_qubit
     QuTipBackend.__init__ QuTipBackend.add_host
     SafeDict.__init__ SafeDict.add_to_dict SafeDict.get].

(** The same, along the branch an equation [H] on the state selects. *)
Ltac run_with H :=
  cbn [instance_of] in H; run; repeat (progress (rewrite ?H; run)).

(** A bound call runs the body of the method. *)
Lemma invoke_bound self m args kwargs b :
  bind_args (signature_of m) args kwargs = inr b →
  invoke self m args kwargs = body self m b.
Proof. intros Hb. unfold invoke. by rewrite Hb. Qed.

(** A call that does not bind raises [TypeError] and changes nothing. *)
Lemma invoke_unbound self m args kwargs err st :
  bind_args (signature_of m) args kwargs = inl err →
  invoke self m args kwargs st = (Raise (TypeError err), st).
Proof. intros Hb. unfold invoke. by rewrite Hb. Qed.

(** The body of an interface method raises whatever its arguments are. *)
Lemma interface_body self m b st :
  m ∈ interface_methods →
  body self m b st = (Raise (EnvironmentError interface_msg), st).
Proof.
  intros Hm. destruct m; try reflexivity;
    exfalso; revert Hm; unfold interface_methods;
    rewrite !elem_of_cons, elem_of_nil; intuition discriminate.
Qed.

(** The two hooks and the interface methods leave the state alone. *)
Lemma body_state self m b st :
  m ≠ m_add_host → (body self m b st).2 = st.
Proof. intros Hm. by destruct m. Qed.

(** C1: each gate, entanglement, qubit-lifecycle and measurement method of
    the facade raises [EnvironmentError] with the interface message, the
    design's [NotImplemented], for every backend, every value of every
    argument and every state, and leaves the state as it was. *)
Theorem interface_not_implemented :
  let fails (call : M pyval) :=
    ∀ st, call st = (Raise (EnvironmentError interface_msg), st) in
  classify (EnvironmentError interface_msg) = Some Taxonomy.NotImplemented
  ∧ (∀ self host_id, fails (QuTipBackend.create_qubit self host_id))
  ∧ (∀ self qubit from_host_id to_host_id,
       fails (QuTipBackend.send_qubit_to self qubit from_host_id to_host_id))
  ∧ (∀ self host_a_id host_b_id q_id block,
       fails (QuTipBackend.create_EPR self host_a_id host_b_id q_id block))
  ∧ (∀ self host_id sender_id q_id block,
       fails (QuTipBackend.receive_epr self host_id sender_id q_id block))
  ∧ (∀ self qubit, fails (QuTipBackend.I self qubit))
  ∧ (∀ self qubit, fails (QuTipBackend.X self qubit))
  ∧ (∀ self qubit, fails (QuTipBackend.Y self qubit))
  ∧ (∀ self qubit, fails (QuTipBackend.Z self qubit))
  ∧ (∀ self qubit, fails (QuTipBackend.H self qubit))
  ∧ (∀ self qubit, fails (QuTipBackend.T self qubit))
  ∧ (∀ self qubit phi, fails (QuTipBackend.rx self qubit phi))
  ∧ (∀ self qubit phi, fails (QuTipBackend.ry self qubit phi))
  ∧ (∀ self phi, fails (QuTipBackend.rz self phi))
  ∧ (∀ self qubit target, fails (QuTipBackend.cnot self qubit target))
  ∧ (∀ self qubit target, fails (QuTipBackend.cphase self qubit target))
  ∧ (∀ self qubit gate, fails (QuTipBackend.custom_gate self qubit gate))
  ∧ (∀ self qubit target gate,
       fails (QuTipBackend.custom_controlled_gate self qubit target gate))
  ∧ (∀ self qubit1 qubit2 gate,
       fails (QuTipBackend.custom_two_qubit_gate self qubit1 qubit2 gate))
  ∧ (∀ self qubit target_1 target_2 gate,
       fails (QuTipBackend.custom_controlled_two_qubit_gate
                self qubit target_1 target_2 gate))
  ∧ (∀ self qubit, fails (QuTipBackend.density_operator self qubit))
  ∧ (∀ self qubit non_destructive,
       fails (QuTipBackend.measure self qubit non_destructive))
  ∧ (∀ self qubit, fails (QuTipBackend.release self qubit)).
Proof. intros fails. repeat split. Qed.

(** Through the binder: a call of an interface method whose arguments fill
    the parameter list, by position, by keyword or by default, raises the
    interface's [EnvironmentError] and changes nothing. *)
Lemma invoke_interface_method self m args kwargs b st :
  m ∈ interface_methods →
  bind_args (signature_of m) args kwargs = inr b →
  invoke self m args kwargs st = (Raise (EnvironmentError interface_msg), st).
Proof.
  intros Hm Hb. rewrite (invoke_bound _ _ _ _ _ Hb). by apply interface_body.
Qed.

Lemma invoke_interface_method_witness :
  let self := {| _hosts := 0; _entaglement_qubits := 1 |} in
  let args := [VStr "Alice"; VStr "Bob"] in
  let kwargs := [("block", VBool true)] in
  invoke self m_create_EPR args kwargs init_state
    = (Raise (EnvironmentError interface_msg), init_state).
Proof.
  intros self args kwargs.
  refine (invoke_interface_method self m_create_EPR args kwargs
            {| env := list_to_map
                 [("host_a_id", VStr "Alice"); ("host_b_id", VStr "Bob");
                  ("q_id", VNone); ("block", VBool true)];
               extra := ∅ |} init_state _ _).
  - apply (bool_decide_unpack _). vm_compute. exact Logic.I.
  - vm_compute. reflexivity.
Defined.

(** C4, as the code has it: [receive_epr(host_id, sender_id, q_id,
    block=False)] on the facade raises [EnvironmentError] with the interface
    message, the design's [NotImplemented], for every host, sender and id and
    in every state, whether a matching record exists or not; no registry is
    read or changed. *)
Theorem receive_epr_not_implemented self host_id sender_id q_id st :
  invoke self m_receive_epr [host_id; sender_id; q_id] [("block", VBool false)] st
    = (Raise (EnvironmentError interface_msg), st)
  ∧ QuTipBackend.receive_epr self host_id sender_id q_id (VBool false) st
    = (Raise (EnvironmentError interface_msg), st)
  ∧ classify (EnvironmentError interface_msg) = Some Taxonomy.NotImplemented.
Proof. done. Qed.

(** C4 fails as stated: in the state a fresh backend leaves, where the
    entanglement registry is empty and so holds no record for the id,
    [receive_epr("Bob", "Alice", "e1", block=False)] raises the interface's
    [EnvironmentError], which is not the design's [EntanglementNotFound]. *)
Lemma receive_epr_not_found_counterexample :
  let st := exec [New_backend] init_state in
  let self := {| _hosts := 0; _entaglement_qubits := 1 |} in
  (QuTipBackend.__init__ init_state).1 = Return self
  ∧ registry_at st (_entaglement_qubits self) = Some ∅
  ∧ invoke self m_receive_epr [VStr "Bob"; VStr "Alice"; VStr "e1"]
      [("block", VBool false)] st
    = (Raise (EnvironmentError interface_msg), st)
  ∧ classify (EnvironmentError interface_msg) ≠ Some Taxonomy.EntanglementNotFound.
Proof. repeat split; try reflexivity. discriminate. Qed.

(** C5, as the code has it: [custom_gate(q, gate)] on the facade raises
    [EnvironmentError] with the interface message, the design's
    [NotImplemented], for every qubit and every gate, of any shape and unitary
    or not, and the state, the qubits' included, is the one before the
    call. *)
Theorem custom_gate_not_implemented self qubit gate st :
  invoke self m_custom_gate [qubit; gate] [] st
    = (Raise (EnvironmentError interface_msg), st)
  ∧ QuTipBackend.custom_gate self qubit gate st
    = (Raise (EnvironmentError interface_msg), st)
  ∧ classify (EnvironmentError interface_msg) = Some Taxonomy.NotImplemented.
Proof. done. Qed.

(** C5 fails as stated: on a gate of three rows of three entries, and so not a 2x2 one, [custom_gate]
    raises the interface's [EnvironmentError], which is neither the design's
    [InvalidGateDimension] nor its [NotUnitary]; the qubit's collection at
    reference 2 is untouched. *)
Lemma custom_gate_validation_counterexample :
  let st := exec [New_backend; New_collection] init_state in
  let self := {| _hosts := 0; _entaglement_qubits := 1 |} in
  let gate := VList [VList [VInt 1; VInt 0; VInt 0];
                     VList [VInt 0; VInt 1; VInt 0];
                     VList [VInt 0; VInt 0; VInt 1]] in
  is_2x2 gate = false
  ∧ heap st !! 2 = Some (Collection (Qobj_init [1%Z; 0%Z]))
  ∧ invoke self m_custom_gate [VRef 2; gate] [] st
    = (Raise (EnvironmentError interface_msg), st)
  ∧ classify (EnvironmentError interface_msg) ≠ Some Taxonomy.InvalidGateDimension
  ∧ classify (EnvironmentError interface_msg) ≠ Some Taxonomy.NotUnitary.
Proof. repeat split; try reflexivity; discriminate. Qed.

(** C6 at the call [rz(qubit, phi)]: [rz] is declared with the one parameter
    [phi], so the call does not bind and raises [TypeError] (2 positional
    arguments taken, [self] counted, 3 given) before the body is reached,
    where the same call of [rx] and of [ry] binds and reaches the body; [rz]
    binds with [phi] alone. *)
Theorem rz_rejects_qubit_and_phi self qubit phi st :
  invoke self m_rz [qubit; phi] [] st = (Raise (TypeError (TooManyPositional 2 3)), st)
  ∧ invoke self m_rx [qubit; phi] [] st = (Raise (EnvironmentError interface_msg), st)
  ∧ invoke self m_ry [qubit; phi] [] st = (Raise (EnvironmentError interface_msg), st)
  ∧ invoke self m_rz [phi] [] st = (Raise (EnvironmentError interface_msg), st).
Proof. done. Qed.

(** ** The lifecycle hooks *)

(** C9: [start], whatever [kwargs] holds, and [stop] return [None] and leave
    the whole state, both registries and every collection, as it was; so does
    the call through the binder. *)
Theorem start_stop_noop self (kwargs : gmap string pyval) st :
  QuTipBackend.start self kwargs st = (Return VNone, st)
  ∧ QuTipBackend.stop self st = (Return VNone, st)
  ∧ invoke self m_start [] [] st = (Return VNone, st)
  ∧ invoke self m_stop [] [] st = (Return VNone, st).
Proof. done. Qed.

(** A [start] that binds is a no-op whatever the configuration. *)
Lemma invoke_start_noop self kwargs b st :
  bind_args (signature_of m_start) [] kwargs = inr b →
  invoke self m_start [] kwargs st = (Return VNone, st).
Proof. intros Hb. by rewrite (invoke_bound _ _ _ _ _ Hb). Qed.

(** ** [QubitCollection] *)

(** C10: [QubitCollection()] allocates a collection whose amplitudes are
    [1, 0], which is the ket |0> of one qubit ([basis 2 0], two amplitudes, of
    norm 1), and touches no other object; [add_qubit] returns
    [None] and leaves the state, the collection included, as it was, for
    every collection and every argument. *)
Theorem QubitCollection_ket0 st :
  ∃ l q st',
    QuTipBackend.QubitCollection.new st = (Return l, st')
    ∧ heap st !! l = None
    ∧ heap st' !! l = Some (Collection q)
    ∧ data q = [1%Z; 0%Z]
    ∧ data q = basis 2 0
    ∧ length (data q) = 2
    ∧ norm2 (data q) = 1%Z
    ∧ (∀ l', l' ≠ l → heap st' !! l' = heap st !! l')
    ∧ (∀ c, instance_of c st' = instance_of c st)
    ∧ (∀ self qubit s,
         QuTipBackend.QubitCollection.add_qubit self qubit s = (Return VNone, s)).
Proof.
  exists (fresh (dom (heap st))), (Qobj_init [1%Z; 0%Z]).
  eexists. split; [reflexivity|]. cbn. repeat split.
  - apply not_elem_of_dom, is_fresh.
  - apply lookup_insert_eq.
  - intros l' Hl'. by rewrite lookup_insert_ne.
  - by intros [].
Qed.

(** ** The registry singletons *)

Lemma get_instance_live c st l :
  instance_of c st = Some l → get_instance c st = (Return l, st).
Proof. intros Hi. destruct c; by run_with Hi. Qed.

Lemma get_instance_none c st :
  instance_of c st = None → get_instance c st = construct c st.
Proof. intros Hi. destruct c; by run_with Hi. Qed.

Lemma construct_live c st l :
  instance_of c st = Some l →
  construct c st = (Raise (Exception singleton_msg), st).
Proof. intros Hi. destruct c; by run_with Hi. Qed.

Lemma construct_none c st :
  instance_of c st = None →
  construct c st =
    (Return (fresh (dom (heap st))),
     set_heap <[fresh (dom (heap st)) := Registry c ∅]>
       (set_instance c (Some (fresh (dom (heap st)))) st)).
Proof. intros Hi. destruct c; by run_with Hi. Qed.

Lemma instance_of_set_heap c f st :
  instance_of c (set_heap f st) = instance_of c st.
Proof. by destruct c. Qed.

Lemma instance_of_set_instance c c' v st :
  instance_of c (set_instance c' v st) = if decide (c = c') then v else instance_of c st.
Proof. by destruct c, c'. Qed.

Lemma heap_set_instance c v st : heap (set_instance c v st) = heap st.
Proof. by destruct c. Qed.

Lemma fresh_heap st : heap st !! fresh (dom (heap st)) = None.
Proof. apply not_elem_of_dom, is_fresh. Qed.

(** What each statement does to the state is a sequence of changes. *)
Lemma construct_changes c st : rtc change st (construct c st).2.
Proof.
  destruct (instance_of c st) as [l|] eqn:Hi.
  - rewrite (construct_live _ _ _ Hi). reflexivity.
  - rewrite (construct_none _ _ Hi). apply rtc_once.
    apply change_install; [done | apply fresh_heap].
Qed.

Lemma get_instance_changes c st : rtc change st (get_instance c st).2.
Proof.
  destruct (instance_of c st) as [l|] eqn:Hi.
  - rewrite (get_instance_live _ _ _ Hi). reflexivity.
  - rewrite (get_instance_none _ _ Hi). apply construct_changes.
Qed.

Lemma get_instance_returns c st : ∃ l, (get_instance c st).1 = Return l.
Proof.
  destruct (instance_of c st) as [l|] eqn:Hi.
  - rewrite (get_instance_live _ _ _ Hi). by exists l.
  - rewrite (get_instance_none _ _ Hi), (construct_none _ _ Hi). by eexists.
Qed.

(** After [get_instance] the class has its instance, the one returned. *)
Lemma get_instance_sets c st l :
  (get_instance c st).1 = Return l → instance_of c (get_instance c st).2 = Some l.
Proof.
  destruct (instance_of c st) as [l0|] eqn:Hi.
  - rewrite (get_instance_live _ _ _ Hi). cbn. congruence.
  - rewrite (get_instance_none _ _ Hi), (construct_none _ _ Hi). cbn.
    intros [= <-]. rewrite instance_of_set_heap, instance_of_set_instance.
    by rewrite decide_True.
Qed.

Lemma add_to_dict_changes l key value st :
  rtc change st (SafeDict.add_to_dict l key value st).2.
Proof.
  run. destruct (heap st !! l) as [[c dict|q]|] eqn:Hl; try reflexivity.
  destruct (dict !! key) eqn:Hk; [reflexivity|].
  apply rtc_once. by apply change_register.
Qed.

Lemma invoke_changes self m args kwargs st :
  rtc change st (invoke self m args kwargs st).2.
Proof.
  unfold invoke. destruct (bind_args _ _ _) as [err|b]; [reflexivity|].
  destruct (decide (m = m_add_host)) as [->|Hm].
  - cbn [body]. destruct (arg b "host"); try reflexivity.
    apply add_to_dict_changes.
  - by rewrite body_state.
Qed.

Lemma new_backend_changes st : rtc change st (QuTipBackend.__init__ st).2.
Proof.
  unfold QuTipBackend.__init__, mbind, M_bind.
  change QuTipBackend.Hosts.get_instance with (get_instance HostsClass).
  change QuTipBackend.EntanglementIDs.get_instance
    with (get_instance EntanglementIDsClass).
  pose proof (get_instance_changes HostsClass st) as H1.
  destruct (get_instance_returns HostsClass st) as [h Hh].
  destruct (get_instance HostsClass st) as [r1 st1]. cbn in H1, Hh. subst r1.
  pose proof (get_instance_changes EntanglementIDsClass st1) as H2.
  destruct (get_instance_returns EntanglementIDsClass st1) as [e He].
  destruct (get_instance EntanglementIDsClass st1) as [r2 st2]. cbn in H2, He.
  subst r2. cbn. by etrans.
Qed.

Lemma step_changes o st : rtc change st (step o st).
Proof.
  destruct o; cbn [step].
  - apply get_instance_changes.
  - apply construct_changes.
  - apply new_backend_changes.
  - apply invoke_changes.
  - apply rtc_once. run. cbn. apply change_collect, fresh_heap.
  - reflexivity.
Qed.

Lemma exec_cons o ops st : exec (o :: ops) st = exec ops (step o st).
Proof. reflexivity. Qed.

Lemma exec_app ops1 ops2 st : exec (ops1 ++ ops2) st = exec ops2 (exec ops1 st).
Proof. apply fold_left_app. Qed.

Lemma exec_changes ops st : rtc change st (exec ops st).
Proof.
  revert st. induction ops as [|o ops IH]; intros st; [reflexivity|].
  rewrite exec_cons. etrans; [apply step_changes | apply IH].
Qed.

Lemma reachable_exec ops st : reachable st → reachable (exec ops st).
Proof. intros [ops0 <-]. exists (ops0 ++ ops). apply exec_app. Qed.

(** Nothing a statement does removes an instance, a registry or an entry. *)
Lemma change_extends st st' : change st st' → extends st st'.
Proof.
  destruct 1 as [c l st Hi Hl | l c dict key value st Hl Hk | l q st Hl]; split.
  - intros c' l'. rewrite instance_of_set_heap, instance_of_set_instance.
    case_decide; [congruence | done].
  - intros l' c' dict' Hl'. exists dict'. split; [|done].
    cbn. rewrite heap_set_instance, lookup_insert_ne; [done | congruence].
  - intros c' l'. by rewrite instance_of_set_heap.
  - intros l' c' dict' Hl'. cbn. destruct (decide (l = l')) as [<-|Hne].
    + rewrite lookup_insert_eq. rewrite Hl in Hl'. injection Hl' as <- <-.
      eexists. split; [done|]. by apply insert_subseteq.
    + rewrite lookup_insert_ne by done. by exists dict'.
  - intros c' l'. by rewrite instance_of_set_heap.
  - intros l' c' dict' Hl'. exists dict'. split; [|done].
    cbn. rewrite lookup_insert_ne; [done | congruence].
Qed.

Lemma extends_refl st : extends st st.
Proof. split; [done|]. intros l c dict Hl. by exists dict. Qed.

Lemma extends_trans st1 st2 st3 : extends st1 st2 → extends st2 st3 → extends st1 st3.
Proof.
  intros [Hi1 Hr1] [Hi2 Hr2]. split; [by auto|].
  intros l c dict Hl. destruct (Hr1 _ _ _ Hl) as (dict' & Hl' & Hsub).
  destruct (Hr2 _ _ _ Hl') as (dict'' & Hl'' & Hsub').
  exists dict''. split; [done | by etrans].
Qed.

Lemma changes_extends st st' : rtc change st st' → extends st st'.
Proof.
  induction 1 as [|st1 st2 st3 Hc _ IH]; [apply extends_refl|].
  eapply extends_trans; [by apply change_extends | done].
Qed.

Lemma exec_extends ops st : extends st (exec ops st).
Proof. apply changes_extends, exec_changes. Qed.

(** The singleton invariant holds at the start and every change keeps it. *)
Lemma singletons_init : singletons init_state.
Proof.
  intros c l. split.
  - intros [dict Hd]. cbn in Hd. by rewrite lookup_empty in Hd.
  - by destruct c.
Qed.

Lemma change_singletons st st' : change st st' → singletons st → singletons st'.
Proof.
  destruct 1 as [c l st Hi Hl | l c dict key value st Hl Hk | l q st Hl];
    intros Hs c' l'; unfold constructed;
    rewrite ?instance_of_set_heap, ?instance_of_set_instance; cbn;
    rewrite ?heap_set_instance.
  - destruct (decide (l = l')) as [<-|Hne].
    + rewrite lookup_insert_eq. case_decide as Hc.
      * subst c'. split; [done | by eexists].
      * split.
        -- intros [dict [= ? ?]]. congruence.
        -- intros Hi'. apply Hs in Hi' as [dict Hd]. congruence.
    + rewrite lookup_insert_ne by done. case_decide as Hc.
      * subst c'. split.
        -- intros Hd. apply Hs in Hd. congruence.
        -- intros [= ?]. congruence.
      * apply Hs.
  - destruct (decide (l = l')) as [<-|Hne].
    + rewrite lookup_insert_eq, <- (Hs c' l). unfold constructed. rewrite Hl.
      split; intros [d [= <- ?]]; by eexists.
    + rewrite lookup_insert_ne by done. apply Hs.
  - destruct (decide (l = l')) as [<-|Hne].
    + rewrite lookup_insert_eq, <- (Hs c' l). unfold constructed. rewrite Hl.
      split; intros [d [=]].
    + rewrite lookup_insert_ne by done. apply Hs.
Qed.

Lemma changes_singletons st st' : rtc change st st' → singletons st → singletons st'.
Proof. induction 1; eauto using change_singletons. Qed.

Lemma reachable_singletons st : reachable st → singletons st.
Proof.
  intros [ops <-]. eapply changes_singletons; [apply exec_changes | apply singletons_init].
Qed.

Lemma construct_sets c st : is_Some (instance_of c (construct c st).2).
Proof.
  destruct (instance_of c st) as [l|] eqn:Hi.
  - rewrite (construct_live _ _ _ Hi). cbn. by rewrite Hi.
  - rewrite (construct_none _ _ Hi). cbn.
    rewrite instance_of_set_heap, instance_of_set_instance. by rewrite decide_True.
Qed.

(** Constructing twice: whatever the first call did, the second raises. *)
Lemma construct_twice c st :
  construct c (construct c st).2
    = (Raise (Exception singleton_msg), (construct c st).2).
Proof. destruct (construct_sets c st) as [l Hl]. by eapply construct_live. Qed.

(** C2: constructing [Hosts] or [EntanglementIDs] directly while the class
    has its instance raises [Exception] with the message of the singleton,
    the design's [SingletonViolation]; no object is constructed, the state is
    the one before the call. *)
Theorem construct_while_live_fails c st l :
  instance_of c st = Some l →
  construct c st = (Raise (Exception singleton_msg), st)
  ∧ classify (Exception singleton_msg) = Some Taxonomy.SingletonViolation.
Proof. intros Hi. split; [by eapply construct_live | reflexivity]. Qed.

Lemma construct_while_live_fails_witness :
  let st := exec [Construct EntanglementIDsClass] init_state in
  construct EntanglementIDsClass st = (Raise (Exception singleton_msg), st)
  ∧ classify (Exception singleton_msg) = Some Taxonomy.SingletonViolation.
Proof.
  intros st.
  apply (construct_while_live_fails EntanglementIDsClass st 0). reflexivity.
Defined.

(** Calls that follow one another: in any state of a sequential run,
    [get_instance] returns an instance; a later call, whatever was done in
    between, returns the same one and constructs nothing; and that instance
    is the only one of its class that was ever constructed. *)
Theorem get_instance_identical c st ops :
  reachable st →
  ∃ l,
    (get_instance c st).1 = Return l
    ∧ (let st' := exec ops (get_instance c st).2 in
       get_instance c st' = (Return l, st')
       ∧ ∀ l', constructed c st' l' ↔ l' = l).
Proof.
  intros Hr. destruct (get_instance_returns c st) as [l Hl]. exists l.
  split; [done|]. intros st'.
  assert (instance_of c st' = Some l) as Hi.
  { apply (exec_extends ops), get_instance_sets, Hl. }
  split; [by apply get_instance_live|].
  assert (singletons st') as Hs.
  { apply reachable_singletons, reachable_exec.
    by apply (reachable_exec [Get_instance c]). }
  intros l'. rewrite (Hs c l'), Hi. split; congruence.
Qed.

Lemma get_instance_identical_witness :
  ∃ l,
    (get_instance HostsClass init_state).1 = Return l
    ∧ (let st' := exec [Construct HostsClass; New_backend; Get_instance HostsClass]
                    (get_instance HostsClass init_state).2 in
       get_instance HostsClass st' = (Return l, st')
       ∧ ∀ l', constructed HostsClass st' l' ↔ l' = l).
Proof.
  apply (get_instance_identical HostsClass init_state
           [Construct HostsClass; New_backend; Get_instance HostsClass]).
  exists []. reflexivity.
Defined.

(** ** Backends and hosts *)

Lemma new_backend_live st h e :
  instance_of HostsClass st = Some h →
  instance_of EntanglementIDsClass st = Some e →
  QuTipBackend.__init__ st = (Return {| _hosts := h; _entaglement_qubits := e |}, st).
Proof. cbn. intros Hh He. run. rewrite Hh. run. by rewrite He. Qed.

(** A new backend holds the instance of each registry class. *)
Lemma new_backend_instances st :
  ∃ b, (QuTipBackend.__init__ st).1 = Return b
       ∧ instance_of HostsClass (QuTipBackend.__init__ st).2 = Some (_hosts b)
       ∧ instance_of EntanglementIDsClass (QuTipBackend.__init__ st).2
         = Some (_entaglement_qubits b).
Proof.
  unfold QuTipBackend.__init__, mbind, M_bind.
  change QuTipBackend.Hosts.get_instance with (get_instance HostsClass).
  change QuTipBackend.EntanglementIDs.get_instance
    with (get_instance EntanglementIDsClass).
  destruct (get_instance_returns HostsClass st) as [h Hh].
  pose proof (get_instance_sets HostsClass st h Hh) as Hih.
  destruct (get_instance HostsClass st) as [r1 st1]. cbn in Hh, Hih. subst r1.
  destruct (get_instance_returns EntanglementIDsClass st1) as [e He].
  pose proof (get_instance_sets EntanglementIDsClass st1 e He) as Hie.
  pose proof (get_instance_changes EntanglementIDsClass st1) as Hc.
  destruct (get_instance EntanglementIDsClass st1) as [r2 st2]. cbn in He, Hie, Hc.
  subst r2. eexists. split; [reflexivity|]. cbn. split; [|done].
  destruct (changes_extends _ _ Hc) as [Hi _]. by apply (Hi HostsClass).
Qed.

(** Registering under a free id succeeds, and the registry then answers. *)
Lemma add_host_free self host c dict st :
  heap st !! _hosts self = Some (Registry c dict) →
  dict !! host_id host = None →
  QuTipBackend.add_host self host st
    = (Return VNone,
       set_heap <[_hosts self := Registry c (<[host_id host := VHost host]> dict)]> st).
Proof. intros Hl Hk. run. rewrite Hl. run. by rewrite Hk. Qed.

Lemma get_present l key v c dict st :
  heap st !! l = Some (Registry c dict) →
  dict !! key = Some v →
  SafeDict.get l key st = (Return v, st).
Proof. intros Hl Hk. run. rewrite Hl. run. by rewrite Hk. Qed.

(** In a run, a backend whose [_hosts] is the instance registers a host
    whose id is free, and the entry outlives every later statement. *)
Lemma add_host_get self host st :
  reachable st →
  instance_of HostsClass st = Some (_hosts self) →
  (∀ dict, registry_at st (_hosts self) = Some dict → dict !! host_id host = None) →
  (QuTipBackend.add_host self host st).1 = Return VNone
  ∧ ∀ ops, let st' := exec ops (QuTipBackend.add_host self host st).2 in
      SafeDict.get (_hosts self) (host_id host) st' = (Return (VHost host), st')
      ∧ instance_of HostsClass st' = Some (_hosts self).
Proof.
  intros Hr Hi Hfree.
  apply (reachable_singletons _ Hr) in Hi as Hc. destruct Hc as [dict Hd].
  assert (dict !! host_id host = None) as Hk.
  { apply Hfree. unfold registry_at. by rewrite Hd. }
  rewrite (add_host_free _ _ _ _ _ Hd Hk). split; [done|]. intros ops st'.
  destruct (exec_extends ops
    (set_heap <[_hosts self := Registry HostsClass (<[host_id host := VHost host]> dict)]> st))
    as [Hinst Hreg].
  split.
  - destruct (Hreg (_hosts self) HostsClass (<[host_id host := VHost host]> dict))
      as (dict' & Hd' & Hsub).
    { cbn. apply lookup_insert_eq. }
    eapply get_present; [exact Hd'|].
    eapply lookup_weaken; [|exact Hsub]. apply lookup_insert_eq.
  - apply Hinst. by rewrite instance_of_set_heap.
Qed.

(** C7: in a run, for a backend whose [_hosts] is the [Hosts] instance and a
    host whose id is not registered yet, [add_host] returns [None] and
    registers the host under its id: the registry then answers that id with
    the host, right after the call and after every later sequence of
    statements, since nothing the facade does removes or overwrites an
    entry; the registry stays the instance of its class. *)
Theorem add_host_registers self host st ops :
  reachable st →
  instance_of HostsClass st = Some (_hosts self) →
  (∀ dict, registry_at st (_hosts self) = Some dict → dict !! host_id host = None) →
  let st1 := (QuTipBackend.add_host self host st).2 in
  let st2 := exec ops st1 in
  invoke self m_add_host [VHost host] [] st = QuTipBackend.add_host self host st
  ∧ (QuTipBackend.add_host self host st).1 = Return VNone
  ∧ SafeDict.get (_hosts self) (host_id host) st1 = (Return (VHost host), st1)
  ∧ SafeDict.get (_hosts self) (host_id host) st2 = (Return (VHost host), st2)
  ∧ instance_of HostsClass st2 = Some (_hosts self).
Proof.
  intros Hr Hi Hfree st1 st2.
  destruct (add_host_get self host st Hr Hi Hfree) as [Hret Hafter].
  split; [reflexivity|]. split; [done|]. split.
  - apply (Hafter []).
  - apply (Hafter ops).
Qed.

Lemma add_host_registers_witness :
  let self := {| _hosts := 0; _entaglement_qubits := 1 |} in
  let alice := {| host_id := "Alice"; host_ref := 7 |} in
  let other := {| host_id := "Alice"; host_ref := 8 |} in
  let st := exec [New_backend] init_state in
  let st1 := (QuTipBackend.add_host self alice st).2 in
  let st2 := exec [Invoke self m_add_host [VHost other] []; New_collection; New_backend]
               st1 in
  invoke self m_add_host [VHost alice] [] st = QuTipBackend.add_host self alice st
  ∧ (QuTipBackend.add_host self alice st).1 = Return VNone
  ∧ SafeDict.get (_hosts self) (host_id alice) st1 = (Return (VHost alice), st1)
  ∧ SafeDict.get (_hosts self) (host_id alice) st2 = (Return (VHost alice), st2)
  ∧ instance_of HostsClass st2 = Some (_hosts self).
Proof.
  intros self alice other st.
  apply (add_host_registers self alice st
           [Invoke self m_add_host [VHost other] []; New_collection; New_backend]).
  - exists [New_backend]. reflexivity.
  - reflexivity.
  - intros dict [= <-]. reflexivity.
Defined.

(** C8: in a run, a backend constructed now and a backend constructed after
    any later statements have the same [_hosts] and the same
    [_entaglement_qubits], the instances of the two registry classes; so a
    host registered through the first is found through the second. *)
Theorem backends_share_registries st ops host :
  reachable st →
  let st1 := (QuTipBackend.__init__ st).2 in
  let st2 := exec ops st1 in
  let st3 := (QuTipBackend.__init__ st2).2 in
  ∃ b1 b2,
    (QuTipBackend.__init__ st).1 = Return b1
    ∧ (QuTipBackend.__init__ st2).1 = Return b2
    ∧ _hosts b1 = _hosts b2
    ∧ _entaglement_qubits b1 = _entaglement_qubits b2
    ∧ instance_of HostsClass st3 = Some (_hosts b1)
    ∧ instance_of EntanglementIDsClass st3 = Some (_entaglement_qubits b1)
    ∧ ((∀ dict, registry_at st3 (_hosts b1) = Some dict → dict !! host_id host = None) →
       let st4 := (QuTipBackend.add_host b1 host st3).2 in
       (QuTipBackend.add_host b1 host st3).1 = Return VNone
       ∧ SafeDict.get (_hosts b2) (host_id host) st4 = (Return (VHost host), st4)).
Proof.
  intros Hr st1 st2 st3.
  destruct (new_backend_instances st) as (b1 & Hb1 & Hh1 & He1).
  fold st1 in Hh1, He1.
  destruct (exec_extends ops st1) as [Hinst _]. fold st2 in Hinst.
  apply Hinst in Hh1 as Hh2. apply Hinst in He1 as He2.
  pose proof (new_backend_live st2 _ _ Hh2 He2) as Hb2.
  assert (st3 = st2) as Hst3 by (unfold st3; by rewrite Hb2).
  exists b1, b1. rewrite Hst3. split; [done|]. split.
  { rewrite Hb2. by destruct b1. }
  do 4 (split; [done|]). intros Hfree st4.
  assert (reachable st2) as Hr2.
  { apply reachable_exec. by apply (reachable_exec [New_backend]). }
  destruct (add_host_get b1 host st2 Hr2 Hh2 Hfree) as [Hret Hafter].
  split; [done|]. apply (Hafter []).
Qed.

Lemma backends_share_registries_witness :
  let bob := {| host_id := "Bob"; host_ref := 5 |} in
  let st1 := (QuTipBackend.__init__ init_state).2 in
  let st2 := exec [New_collection; Construct HostsClass] st1 in
  let st3 := (QuTipBackend.__init__ st2).2 in
  ∃ b1 b2,
    (QuTipBackend.__init__ init_state).1 = Return b1
    ∧ (QuTipBackend.__init__ st2).1 = Return b2
    ∧ _hosts b1 = _hosts b2
    ∧ _entaglement_qubits b1 = _entaglement_qubits b2
    ∧ instance_of HostsClass st3 = Some (_hosts b1)
    ∧ instance_of EntanglementIDsClass st3 = Some (_entaglement_qubits b1)
    ∧ ((∀ dict, registry_at st3 (_hosts b1) = Some dict → dict !! host_id bob = None) →
       let st4 := (QuTipBackend.add_host b1 bob st3).2 in
       (QuTipBackend.add_host b1 bob st3).1 = Return VNone
       ∧ SafeDict.get (_hosts b2) (host_id bob) st4 = (Return (VHost bob), st4)).
Proof.
  intros bob.
  apply (backends_share_registries init_state [New_collection; Construct HostsClass] bob).
  exists []. reflexivity.
Defined.

(** ** More on the registries *)

(** In every state of a run the registries that exist are the ones the class
    attributes refer to: a class whose [__instance] is [None] has no
    registry, a class whose [__instance] is set has that one and no other,
    however the registries came about ([get_instance], direct construction,
    [QuTipBackend()]). *)
Theorem registry_exists_iff_instance st c :
  reachable st →
  (instance_of c st = None → ∀ l, ¬ constructed c st l)
  ∧ (∀ l, instance_of c st = Some l →
       constructed c st l ∧ ∀ l', constructed c st l' → l' = l).
Proof.
  intros Hr. pose proof (reachable_singletons _ Hr) as Hs. split.
  - intros Hnone l Hl. apply Hs in Hl. congruence.
  - intros l Hl. split; [by apply Hs|].
    intros l' Hl'. apply Hs in Hl'. congruence.
Qed.

Lemma registry_exists_iff_instance_witness :
  let st := exec [Construct HostsClass; Get_instance HostsClass] init_state in
  (instance_of EntanglementIDsClass st = None →
     ∀ l, ¬ constructed EntanglementIDsClass st l)
  ∧ (∀ l, instance_of EntanglementIDsClass st = Some l →
       constructed EntanglementIDsClass st l
       ∧ ∀ l', constructed EntanglementIDsClass st l' → l' = l).
Proof.
  intros st. apply (registry_exists_iff_instance st EntanglementIDsClass).
  exists [Construct HostsClass; Get_instance HostsClass]. reflexivity.
Defined.

(** The two attributes of a backend never alias: in a run, [QuTipBackend()]
    succeeds, its [_hosts] is a [Hosts] object, its [_entaglement_qubits] an
    [EntanglementIDs] object, and the two are different objects. *)
Theorem backend_registries_distinct st :
  reachable st →
  ∃ b st',
    QuTipBackend.__init__ st = (Return b, st')
    ∧ constructed HostsClass st' (_hosts b)
    ∧ constructed EntanglementIDsClass st' (_entaglement_qubits b)
    ∧ _hosts b ≠ _entaglement_qubits b.
Proof.
  intros Hr. destruct (new_backend_instances st) as (b & Hb & Hh & He).
  exists b, (QuTipBackend.__init__ st).2.
  assert (singletons (QuTipBackend.__init__ st).2) as Hs.
  { apply reachable_singletons. by apply (reachable_exec [New_backend]). }
  apply Hs in Hh as Hch. apply Hs in He as Hce.
  split; [|split; [done|split; [done|]]].
  - destruct (QuTipBackend.__init__ st) as [r st']. cbn in Hb. by subst r.
  - intros Heq. destruct Hch as [d1 Hd1], Hce as [d2 Hd2].
    rewrite Heq in Hd1. congruence.
Qed.

Lemma backend_registries_distinct_witness :
  ∃ b st',
    QuTipBackend.__init__ init_state = (Return b, st')
    ∧ constructed HostsClass st' (_hosts b)
    ∧ constructed EntanglementIDsClass st' (_entaglement_qubits b)
    ∧ _hosts b ≠ _entaglement_qubits b.
Proof. apply (backend_registries_distinct init_state). exists []. reflexivity. Defined.

(** Once a class has its instance, no statement clears or replaces it, and
    the object stays a registry of that class: nothing in the module assigns
    [__instance] but the guarded [__init__], and nothing deletes an object. *)
Theorem instance_never_replaced c st l ops :
  instance_of c st = Some l →
  instance_of c (exec ops st) = Some l
  ∧ (constructed c st l → constructed c (exec ops st) l).
Proof.
  intros Hi. destruct (exec_extends ops st) as [Hinst Hreg]. split; [by apply Hinst|].
  intros [dict Hd]. destruct (Hreg _ _ _ Hd) as (dict' & Hd' & _). by exists dict'.
Qed.

Lemma instance_never_replaced_witness :
  let self := {| _hosts := 0; _entaglement_qubits := 1 |} in
  let st := exec [Get_instance EntanglementIDsClass] init_state in
  let ops := [Construct EntanglementIDsClass; New_collection; New_backend;
              Invoke self m_release [VRef 1] []; Get_instance EntanglementIDsClass] in
  instance_of EntanglementIDsClass (exec ops st) = Some 0
  ∧ (constructed EntanglementIDsClass st 0
     → constructed EntanglementIDsClass (exec ops st) 0).
Proof.
  intros self st ops. apply (instance_never_replaced EntanglementIDsClass st 0 ops).
  reflexivity.
Defined.

(** Direct construction while the class has no instance succeeds: the new
    object is a fresh one, it becomes the instance, so [get_instance] then
    returns it, and neither another object nor the other class's
    [__instance] is touched. *)
Theorem construct_becomes_instance c st :
  instance_of c st = None →
  ∃ l st',
    construct c st = (Return l, st')
    ∧ heap st !! l = None
    ∧ constructed c st' l
    ∧ get_instance c st' = (Return l, st')
    ∧ (∀ l', l' ≠ l → heap st' !! l' = heap st !! l')
    ∧ (∀ c', c' ≠ c → instance_of c' st' = instance_of c' st).
Proof.
  intros Hi. rewrite (construct_none _ _ Hi). eexists _, _. split; [reflexivity|].
  split; [apply fresh_heap|]. split.
  { eexists. cbn. rewrite heap_set_instance. apply lookup_insert_eq. }
  split.
  { apply get_instance_live.
    rewrite instance_of_set_heap, instance_of_set_instance. by rewrite decide_True. }
  split.
  - intros l' Hl'. cbn. rewrite heap_set_instance. by rewrite lookup_insert_ne.
  - intros c' Hc'. rewrite instance_of_set_heap, instance_of_set_instance.
    by rewrite decide_False.
Qed.

Lemma construct_becomes_instance_witness :
  let st := exec [Get_instance EntanglementIDsClass; New_collection] init_state in
  ∃ l st',
    construct HostsClass st = (Return l, st')
    ∧ heap st !! l = None
    ∧ constructed HostsClass st' l
    ∧ get_instance HostsClass st' = (Return l, st')
    ∧ (∀ l', l' ≠ l → heap st' !! l' = heap st !! l')
    ∧ (∀ c', c' ≠ HostsClass → instance_of c' st' = instance_of c' st).
Proof. intros st. apply (construct_becomes_instance HostsClass st). reflexivity. Defined.

(** ** More on the calls *)

(** No method but [add_host] changes the state, whatever the arguments and
    whether the call binds, runs [pass] or raises. *)
Theorem only_add_host_mutates self m args kwargs st :
  m ≠ m_add_host → (invoke self m args kwargs st).2 = st.
Proof.
  intros Hm. unfold invoke. destruct (bind_args _ _ _) as [err|b]; [reflexivity|].
  by apply body_state.
Qed.

Lemma only_add_host_mutates_witness :
  let self := {| _hosts := 0; _entaglement_qubits := 1 |} in
  let st := exec [New_backend; New_collection] init_state in
  (invoke self m_measure [VRef 2] [("non_destructive", VBool false)] st).2 = st.
Proof.
  intros self st.
  apply (only_add_host_mutates self m_measure [VRef 2]
           [("non_destructive", VBool false)] st).
  discriminate.
Defined.

(** No method returns anything but [None], and only [start], [stop] and
    [add_host] return at all: a call of any other method that comes back
    came back with an exception. *)
Theorem invoke_returns_none self m args kwargs st v st' :
  invoke self m args kwargs st = (Return v, st') →
  v = VNone ∧ (m = m_start ∨ m = m_stop ∨ m = m_add_host).
Proof.
  unfold invoke. destruct (bind_args _ _ _) as [err|b]; [discriminate|].
  destruct m; cbn [body]; try discriminate.
  - intros [= <- _]. auto.
  - intros [= <- _]. auto.
  - destruct (arg b "host"); try discriminate. run.
    destruct (heap st !! _hosts self) as [[c dict|q]|]; try discriminate.
    destruct (dict !! host_id h); [discriminate|]. intros [= <- _]. auto.
Qed.

Lemma invoke_returns_none_witness :
  let self := {| _hosts := 0; _entaglement_qubits := 1 |} in
  let st := exec [New_backend] init_state in
  invoke self m_stop [] [] st = (Return VNone, st)
  ∧ VNone = VNone ∧ (m_stop = m_start ∨ m_stop = m_stop ∨ m_stop = m_add_host).
Proof.
  intros self st. split; [reflexivity|].
  apply (invoke_returns_none self m_stop [] [] st VNone st). reflexivity.
Defined.

(** Positional calls and the parameter lists.  With more arguments than a
    method declares parameters the call raises [TypeError], both counts in
    it; with fewer than the parameters without default it raises [TypeError]
    naming the first parameter left open; in between the call binds and the
    body runs.  So [rz] takes exactly one argument, [rx] and [ry] two,
    [create_EPR] and [receive_epr] two to four, [start] and [stop] none. *)
Theorem invoke_arity self m args st :
  let sg := signature_of m in
  (length (sig_params sg) < length args →
     invoke self m args [] st
       = (Raise (TypeError (TooManyPositional (S (length (sig_params sg)))
                                              (S (length args)))), st))
  ∧ (length args < required sg →
     ∃ p, sig_params sg !! length args = Some p
          ∧ invoke self m args [] st
            = (Raise (TypeError (MissingArgument (p_name p))), st))
  ∧ (required sg ≤ length args ≤ length (sig_params sg) →
     ∃ b, bind_args sg args [] = inr b
          ∧ invoke self m args [] st = body self m b st).
Proof.
  intros sg. split; [|split].
  - intros Hlen. unfold invoke, bind_args. cbn [bind_keywords].
    rewrite length_map. by rewrite decide_True.
  - intros Hlen.
    destruct m; destruct args as [|a1 [|a2 [|a3 [|a4 [|a5 args]]]]];
      try (exfalso; vm_compute in Hlen; lia);
      (eexists; split; reflexivity).
  - intros [Hlo Hhi].
    destruct m; destruct args as [|a1 [|a2 [|a3 [|a4 [|a5 args]]]]];
      try (exfalso; vm_compute in Hlo; cbn in Hhi; lia);
      (eexists; split; reflexivity).
Qed.

(** With [**kwargs] open, every keyword that names nothing bound yet is
    taken. *)
Lemma bind_keywords_var_kw bound kwargs b :
  NoDup kwargs.*1 →
  (∀ k, k ∈ kwargs.*1 → k ∉ bound) →
  ∃ b', bind_keywords true bound [] kwargs b = inr b' ∧ env b' = env b.
Proof.
  revert bound b. induction kwargs as [|[k v] kwargs IH]; intros bound b Hnd Hfree.
  - by exists b.
  - cbn [bind_keywords]. apply NoDup_cons in Hnd as [Hk Hnd].
    rewrite decide_False by (apply Hfree; left).
    rewrite decide_False by apply not_elem_of_nil.
    destruct (IH (k :: bound) {| env := env b; extra := <[k := v]> (extra b) |} Hnd)
      as (b' & Hb' & Henv).
    + intros k' Hk'. rewrite not_elem_of_cons. split.
      * intros ->. by apply Hk.
      * apply Hfree. by right.
    + by exists b'.
Qed.

(** [start] takes any configuration: whatever keywords it is called with, as
    long as no keyword comes twice and none is [self], the call binds,
    returns [None] and leaves the state as it was. *)
Theorem start_accepts_configuration self kwargs st :
  NoDup kwargs.*1 →
  "self" ∉ kwargs.*1 →
  invoke self m_start [] kwargs st = (Return VNone, st).
Proof.
  intros Hnd Hself. unfold invoke, bind_args. cbn.
  destruct (bind_keywords_var_kw ["self"] kwargs {| env := ∅; extra := ∅ |} Hnd)
    as (b' & Hb' & Henv).
  { intros k Hk. rewrite list_elem_of_singleton. by intros ->. }
  by rewrite Hb'.
Qed.

Lemma start_accepts_configuration_witness :
  let self := {| _hosts := 0; _entaglement_qubits := 1 |} in
  let kwargs := [("port", VInt 8000); ("verbose", VBool true); ("host", VStr "Alice")] in
  invoke self m_start [] kwargs init_state = (Return VNone, init_state).
Proof.
  intros self kwargs. apply (start_accepts_configuration self kwargs init_state).
  - apply (bool_decide_unpack _). vm_compute. exact Logic.I.
  - apply (bool_decide_unpack _). vm_compute. exact Logic.I.
Defined.

(** ** Overlapping calls of [get_instance] *)

(** A surplus of positional arguments is reported after the keywords are
    bound: with both wrong, the keyword is what the [TypeError] names. *)
Lemma bind_keywords_before_surplus a1 a2 v :
  bind_args (signature_of m_rz) [a1; a2] [("angle", v)] = inl (UnexpectedKeyword "angle")
  ∧ bind_args (signature_of m_rz) [a1; a2] [("phi", v)] = inl (MultipleValues "phi")
  ∧ bind_args (signature_of m_rz) [a1; a2] [] = inl (TooManyPositional 2 3).
Proof. done. Qed.

(** A thread that is not interrupted does what [get_instance] does: the
    thread steps are the sequential call, cut at its accesses. *)
Lemma uninterrupted_get_instance c st :
  let p := run_threads c [0; 0; 0; 0; 0] {| threads := [At_test]; shared := st |} in
  ∃ l, get_instance c st = (Return l, shared p) ∧ threads p = [Returned (Some l)].
Proof.
  destruct (instance_of c st) as [l|] eqn:Hi.
  - exists l. rewrite (get_instance_live _ _ _ Hi).
    unfold run_threads, schedule_step, thread_step. cbn. rewrite Hi. cbn.
    by rewrite Hi.
  - exists (fresh (dom (heap st))).
    rewrite (get_instance_none _ _ Hi), (construct_none _ _ Hi).
    unfold run_threads, schedule_step, thread_step. cbn. rewrite Hi. cbn.
    rewrite !(right_id_L ∅ (∪)).
    rewrite Hi. by cbn.
Qed.

(** C3 at two overlapping calls.  Two threads call [get_instance] of a class
    that has no instance yet.  When each runs its test in [get_instance] and
    its guard in [__init__] before the other assigns [__instance], both
    construct: the calls return two different objects and two registries of
    the class exist.  When the second thread is past the test of
    [get_instance] and the first then runs to its end, the guard of
    [__init__] stops the second: its [get_instance] raises the singleton's
    [Exception]. *)
Theorem get_instance_race c :
  let p0 := {| threads := [At_test; At_test]; shared := init_state |} in
  let p := run_threads c [0; 1; 0; 1; 0; 1; 0; 0; 1; 1] p0 in
  let q := run_threads c [0; 1; 0; 0; 0; 0; 1; 1] p0 in
  threads p = [Returned (Some 0); Returned (Some 1)]
  ∧ constructed c (shared p) 0
  ∧ constructed c (shared p) 1
  ∧ instance_of c (shared p) = Some 1
  ∧ threads q = [Returned (Some 0); Raised (Exception singleton_msg)].
Proof.
  destruct c; repeat split; try (by eexists); reflexivity.
Qed.
